(** * User resources of the mentorship backend

    A shallow embedding of [app/api/resources/user.py]: the request
    handlers of the [Users] namespace, written as functions in a small
    state-and-exception monad over the world a handler can touch (the
    data store behind the [DAO] singleton, the clock, and the log of
    calls made to the data-access layer and to the mailer).

    The collaborators the module imports but does not define (the DAO's
    methods, the validators, the response-message constants, JWT token
    creation, [marshal], the application configuration) are taken as
    section variables, under the names the source uses. *)

From Stdlib Require Import ZArith String List Bool Lia.
Import ListNotations.

Local Open Scope string_scope.
Local Open Scope list_scope.
Local Open Scope Z_scope.

Set Warnings "-register-all".

(** ** Python values *)

(** A Python [float]: a finite value [mantissa * 2^exponent], an infinity
    or a NaN.  Only its truth value is ever inspected by the handlers. *)
Inductive pyfloat : Type :=
| FFinite (mantissa exponent : Z)
| FInfinity (negative : bool)
| FNaN.

(** The values that flow through the handlers: what [request.json] can
    hold, what the constants of [ResponseMessages] can be, response
    bodies and status codes, and the [timedelta] of the configuration
    (a number of microseconds).  [PList] stands for lists and tuples. *)
Inductive pyval : Type :=
| PNone
| PBool (b : bool)
| PInt (z : Z)
| PFloat (f : pyfloat)
| PStr (s : string)
| PList (l : list pyval)
| PDict (d : list (string * pyval))
| PTimedelta (microseconds : Z).

(** A [dict] with string keys, in insertion order. *)
Definition dict : Type := list (string * pyval).

Fixpoint dict_lookup (k : string) (d : dict) : option pyval :=
  match d with
  | [] => None
  | (k', v) :: d' => if String.eqb k' k then Some v else dict_lookup k d'
  end.

(** [d.get(k, default)] *)
Definition dict_get (d : dict) (k : string) (default : pyval) : pyval :=
  match dict_lookup k d with
  | Some v => v
  | None => default
  end.

(** [d != {}] *)
Definition dict_ne_empty (d : dict) : bool :=
  match d with
  | [] => false
  | _ :: _ => true
  end.

Definition float_truthy (f : pyfloat) : bool :=
  match f with
  | FFinite m _ => negb (m =? 0)
  | FInfinity _ => true
  | FNaN => true
  end.

(** [bool(v)]: the truth value the [not v] tests of the handlers use. *)
Definition truthy (v : pyval) : bool :=
  match v with
  | PNone => false
  | PBool b => b
  | PInt z => negb (z =? 0)
  | PFloat f => float_truthy f
  | PStr s => match s with EmptyString => false | String _ _ => true end
  | PList l => match l with [] => false | _ :: _ => true end
  | PDict d => dict_ne_empty d
  | PTimedelta us => negb (us =? 0)
  end.

(** [isinstance(v, int)]; [bool] is a subclass of [int]. *)
Definition isinstance_int (v : pyval) : bool :=
  match v with
  | PInt _ => true
  | PBool _ => true
  | _ => false
  end.

(** [v is n] for an integer literal [n] in CPython's range of shared
    small integers (-5 .. 256): true exactly for the [int] of that
    value, and for no [bool], [float] or other object. *)
Definition is_small_int (v : pyval) (n : Z) : bool :=
  match v with
  | PInt z => z =? n
  | _ => false
  end.

(** ** Exceptions, the world and the handler monad *)

Inductive exn : Type :=
| KeyError (key : pyval)
| IndexError
| TypeError.

Inductive outcome (A : Type) : Type :=
| Returned (a : A)
| Raised (e : exn).
Arguments Returned {A} a.
Arguments Raised {A} e.

(** What a handler does to its collaborators, in the order it does it. *)
Inductive Event : Type :=
| DAOCall (method : string) (args : list pyval)
| SendEmail (name email : pyval).

(** [seq[i]] on a tuple, list or string, with Python's negative
    indices; [d[i]] on a dict with string keys finds no integer key. *)
Definition normal_index (i len : Z) : option nat :=
  let j := if i <? 0 then i + len else i in
  if (0 <=? j) && (j <? len) then Some (Z.to_nat j) else None.

Definition py_getitem (v : pyval) (i : Z) : outcome pyval :=
  match v with
  | PList l =>
      match normal_index i (Z.of_nat (List.length l)) with
      | Some n => match nth_error l n with
                  | Some x => Returned x
                  | None => Raised IndexError
                  end
      | None => Raised IndexError
      end
  | PStr s =>
      match normal_index i (Z.of_nat (String.length s)) with
      | Some n => match String.get n s with
                  | Some c => Returned (PStr (String c EmptyString))
                  | None => Raised IndexError
                  end
      | None => Raised IndexError
      end
  | PDict _ => Raised (KeyError (PInt i))
  | _ => Raised TypeError
  end.

(** ** The user entity *)

(** Modelled from the spec: the User entity of the data model
    ([app.database.models.user] is not among the sources); the handlers
    read [id], [name] and [is_email_verified]. *)
Module UserModel.
Record t : Type := mk {
  id : Z;
  username : string;
  email : string;
  password_hash : string;
  name : string;
  is_email_verified : bool
}.
End UserModel.

(** A response as the handlers return it: [body, status]. *)
Definition response : Type := (pyval * pyval)%type.

(** [{"message": m}] *)
Definition message_body (m : pyval) : pyval := PDict [("message", m)].

(** The constants of [app.utils.responses.ResponseMessages] the handlers
    read; the class itself is not among the sources. *)
Record ResponseMessagesT : Type := {
  USER_ID_IS_NOT_VALID : pyval;
  USER_DOES_NOT_EXIST : pyval;
  USER_IS_NOT_REGISTERED_IN_THE_SYSTEM : pyval;
  EMAIL_ALREADY_CONFIRMED : pyval;
  EMAIL_VERIFICATION_MESSAGE : pyval;
  USERNAME_FIELD_IS_MISSING : pyval;
  PASSWORD_FIELD_IS_MISSING : pyval;
  USERNAME_OR_PASSWORD_FIELD_IS_INCORRECTLY_FILLED_UP : pyval;
  USER_HAS_NOT_VERIFIED_EMAIL_BEFORE_LOGIN : pyval;
  USER_NOT_FOUND : pyval
}.

Section World.

(** The state behind the [DAO] singleton. *)
Variable Store : Type.

Record World : Type := mkWorld {
  db : Store;
  clock : Z;              (* UTC wall clock, microseconds *)
  events : list Event
}.

Definition M (A : Type) : Type := World -> outcome A * World.

Definition ret {A : Type} (a : A) : M A := fun w => (Returned a, w).

Definition bind {A B : Type} (m : M A) (k : A -> M B) : M B :=
  fun w =>
    match m w with
    | (Returned a, w') => k a w'
    | (Raised e, w') => (Raised e, w')
    end.

Definition lift {A : Type} (o : outcome A) : M A := fun w => (o, w).

Definition record (e : Event) (w : World) : World :=
  mkWorld (db w) (clock w) (events w ++ [e]).

(** A call [DAO.method(args)]: logged, then run on the store. *)
Definition dao {A : Type} (method : string) (args : list pyval)
           (f : Store -> A * Store) : M A :=
  fun w =>
    let (a, s') := f (db w) in
    (Returned a, mkWorld s' (clock w) (events w ++ [DAOCall method args])).

(** The world after one call [DAO.method(args)] that leaves the store
    as [s]. *)
Definition after_call (w : World) (s : Store) (method : string)
           (args : list pyval) : World :=
  mkWorld s (clock w) (events w ++ [DAOCall method args]).

(** [send_email_verification_message(name, email)] *)
Definition send_email_verification_message (name email : pyval) : M unit :=
  fun w => (Returned tt, record (SendEmail name email) w).

(** [datetime.utcnow()] *)
Definition utcnow : M Z := fun w => (Returned (clock w), w).

(** [d[k]] *)
Definition dict_item (d : dict) (k : string) : M pyval :=
  match dict_lookup k d with
  | Some v => ret v
  | None => lift (Raised (KeyError (PStr k)))
  end.

(** [datetime + delta]: defined for a [timedelta] only.  The sum is
    meant within the range of [datetime] ([datetime_min] to
    [datetime_max]); past it Python raises [OverflowError]. *)
Definition datetime_add (t : Z) (delta : pyval) : M Z :=
  match delta with
  | PTimedelta us => ret (t + us)
  | _ => lift (Raised TypeError)
  end.

End World.

Arguments mkWorld {Store} db clock events.
Arguments db {Store} w.
Arguments clock {Store} w.
Arguments events {Store} w.
Arguments ret {Store A} a w.
Arguments bind {Store A B} m k w.
Arguments lift {Store A} o w.
Arguments record {Store} e w.
Arguments after_call {Store} w s method args.
Arguments dao {Store A} method args f w.
Arguments send_email_verification_message {Store} name email w.
Arguments utcnow {Store} w.
Arguments dict_item {Store} d k.
Arguments datetime_add {Store} t delta.

Notation "x <- m ;; k" := (bind m (fun x => k))
  (at level 61, m at next level, right associativity).
Notation "m ;;; k" := (bind m (fun _ => k))
  (at level 61, right associativity).

(** ** The handlers of [app/api/resources/user.py] *)

Section Resources.

Variable Store : Type.

(** [app.utils.responses.ResponseMessages] *)
Variable ResponseMessages : ResponseMessagesT.

(** The methods of [app.api.dao.user.UserDAO] the handlers call; each
    may read and change the store. *)
Variable DAO_get_user : pyval -> Store -> option UserModel.t * Store.
Variable DAO_update_user_profile : pyval -> dict -> Store -> response * Store.
Variable DAO_change_password : pyval -> dict -> Store -> response * Store.
Variable DAO_create_user : dict -> Store -> response * Store.
Variable ConfirmationResult : Type.
Variable DAO_confirm_registration : string -> Store -> ConfirmationResult * Store.
Variable DAO_get_user_by_email : pyval -> Store -> option UserModel.t * Store.
Variable DAO_authenticate : pyval -> pyval -> Store -> option UserModel.t * Store.

(** The validators of [app.api.validations.user]: each returns a dict
    of errors, empty when the payload is accepted. *)
Variable validate_update_profile_request_data : dict -> dict.
Variable validate_new_password : dict -> dict.
Variable validate_user_registration_request_data : dict -> dict.
Variable validate_resend_email_request_data : dict -> dict.

(** [flask_restplus.marshal] and the public model of
    [app.api.models.user]. *)
Variable ApiModel : Type.
Variable marshal : UserModel.t -> ApiModel -> pyval.
Variable public_user_api_model : ApiModel.

(** [flask_jwt_extended.create_access_token(identity=...)], a function
    of the identity and of the time of issue.  It is taken to return a
    token: the library's own reading of the configuration, which makes
    it raise when [JWT_ACCESS_TOKEN_EXPIRES] is missing, is not
    modelled. *)
Variable create_access_token : pyval -> Z -> string.

(** [run.application.config] *)
Variable application_config : dict.

(** [datetime.timestamp()]: the standard library's conversion of a
    datetime to seconds since the epoch, a float.  For the naive
    datetimes the handler builds it is [naive_timestamp], defined
    further down, at the offset of the server's zone. *)
Variable timestamp : Z -> pyval.

(** [OtherUser.validate_param] *)
Definition OtherUser_validate_param (user_id : pyval) : bool :=
  isinstance_int user_id.

(** [OtherUser.get] *)
Definition OtherUser_get (user_id : pyval) : M Store response :=
  if negb (OtherUser_validate_param user_id) then
    ret (message_body (USER_ID_IS_NOT_VALID ResponseMessages), PInt 400)
  else
    requested_user <- dao "get_user" [user_id] (DAO_get_user user_id) ;;
    match requested_user with
    | None =>
        ret (message_body (USER_DOES_NOT_EXIST ResponseMessages), PInt 404)
    | Some u =>
        ret (marshal u public_user_api_model, PInt 201)
    end.

(** [MyUserProfile.put]; [user_id] is [get_jwt_identity()]. *)
Definition MyUserProfile_put (user_id : pyval) (data : dict) : M Store response :=
  let is_valid := validate_update_profile_request_data data in
  if dict_ne_empty is_valid then
    ret (PDict is_valid, PInt 400)
  else
    dao "update_user_profile" [user_id; PDict data]
        (DAO_update_user_profile user_id data).

(** [ChangeUserPassword.put] *)
Definition ChangeUserPassword_put (user_id : pyval) (data : dict) : M Store response :=
  let is_valid := validate_new_password data in
  if dict_ne_empty is_valid then
    ret (PDict is_valid, PInt 400)
  else
    dao "change_password" [user_id; PDict data]
        (DAO_change_password user_id data).

(** [UserRegister.post] *)
Definition UserRegister_post (data : dict) : M Store response :=
  let is_valid := validate_user_registration_request_data data in
  if dict_ne_empty is_valid then
    ret (PDict is_valid, PInt 400)
  else
    result <- dao "create_user" [PDict data] (DAO_create_user data) ;;
    (if is_small_int (snd result) 200 then
       name <- dict_item data "name" ;;
       email <- dict_item data "email" ;;
       send_email_verification_message name email
     else ret tt) ;;;
    ret result.

(** [UserEmailConfirmation.get] *)
Definition UserEmailConfirmation_get (token : string) : M Store ConfirmationResult :=
  dao "confirm_registration" [PStr token] (DAO_confirm_registration token).

(** [UserResendEmailConfirmation.post] *)
Definition UserResendEmailConfirmation_post (data : dict) : M Store response :=
  let is_valid := validate_resend_email_request_data data in
  if dict_ne_empty is_valid then
    ret (PDict is_valid, PInt 400)
  else
    email <- dict_item data "email" ;;
    user <- dao "get_user_by_email" [email] (DAO_get_user_by_email email) ;;
    match user with
    | None =>
        ret (message_body
               (USER_IS_NOT_REGISTERED_IN_THE_SYSTEM ResponseMessages),
             PInt 404)
    | Some user =>
        if UserModel.is_email_verified user then
          ret (message_body (EMAIL_ALREADY_CONFIRMED ResponseMessages),
               PInt 403)
        else
          email' <- dict_item data "email" ;;
          send_email_verification_message
            (PStr (UserModel.name user)) email' ;;;
          ret (message_body (EMAIL_VERIFICATION_MESSAGE ResponseMessages),
               PInt 200)
    end.

(** [LoginUser.post]; [request_json] is [request.json], the JSON object
    of the request body ([login_request_body_model]). *)
Definition LoginUser_post (request_json : dict) : M Store response :=
  let username := dict_get request_json "username" PNone in
  let password := dict_get request_json "password" PNone in
  if negb (truthy username) then
    ret (message_body (USERNAME_FIELD_IS_MISSING ResponseMessages), PInt 400)
  else if negb (truthy password) then
    m <- lift (py_getitem (PASSWORD_FIELD_IS_MISSING ResponseMessages) 1) ;;
    ret (message_body m, PInt 400)
  else
    user <- dao "authenticate" [username; password]
                (DAO_authenticate username password) ;;
    match user with
    | None =>
        ret (message_body
               (USERNAME_OR_PASSWORD_FIELD_IS_INCORRECTLY_FILLED_UP
                  ResponseMessages),
             PInt 404)
    | Some user =>
        if negb (UserModel.is_email_verified user) then
          ret (message_body
                 (USER_HAS_NOT_VERIFIED_EMAIL_BEFORE_LOGIN ResponseMessages),
               PInt 403)
        else
          issued_at <- utcnow ;;
          let access_token :=
            create_access_token (PInt (UserModel.id user)) issued_at in
          now <- utcnow ;;
          expiry <- datetime_add now
                      (dict_get application_config
                                "JWT_ACCESS_TOKEN_EXPIRES" PNone) ;;
          ret (PDict [("access_token", PStr access_token);
                      ("expiry", timestamp expiry)],
               PInt 200)
    end.

End Resources.

(** ** The data-access layer, from the specification

    [app/api/dao/user.py] is not among the sources.  The two methods whose
    behaviour the account life cycle depends on, [authenticate] and
    [confirm_registration], are modelled here from the specification,
    over a store that is the list of user records. *)

Module SpecDAO.

Definition Store : Type := list UserModel.t.

Definition find_by_username (s : string) (users : Store) : option UserModel.t :=
  find (fun u => String.eqb (UserModel.username u) s) users.

Definition find_by_email (s : string) (users : Store) : option UserModel.t :=
  find (fun u => String.eqb (UserModel.email u) s) users.

(** Modelled from the spec: the Authenticator's lookup (section 4.3),
    "identifier may equal either username or email - lookup tries both
    fields". *)
Definition lookup_user (identifier : string) (users : Store) : option UserModel.t :=
  match find_by_username identifier users with
  | Some u => Some u
  | None => find_by_email identifier users
  end.

(** Modelled from the spec: [UserDAO.authenticate] (section 4.3); a
    missing record and a password-hash mismatch both give [None], and
    the store is only read.  [check_password] compares a stored hash
    with a submitted password. *)
Definition authenticate (check_password : string -> pyval -> bool)
           (identifier password : pyval) (users : Store)
  : option UserModel.t * Store :=
  match identifier with
  | PStr i =>
      match lookup_user i users with
      | Some u =>
          if check_password (UserModel.password_hash u) password
          then (Some u, users)
          else (None, users)
      | None => (None, users)
      end
  | _ => (None, users)
  end.

Definition set_verified (u : UserModel.t) : UserModel.t :=
  UserModel.mk (UserModel.id u) (UserModel.username u) (UserModel.email u)
               (UserModel.password_hash u) (UserModel.name u) true.

(** The transition Unverified -> Verified of the account the address
    [e] resolves to. *)
Fixpoint mark_verified (e : string) (users : Store) : Store :=
  match users with
  | [] => []
  | u :: rest =>
      if String.eqb (UserModel.email u) e
      then set_verified u :: rest
      else u :: mark_verified e rest
  end.

Inductive ConfirmResult : Type :=
| ConfirmSuccess
| InvalidToken
| AlreadyConfirmed.

(** Modelled from the spec: [UserDAO.confirm_registration], the
    [confirm_email] of section 4.4: decode the token, resolve the
    user, reject an already verified account with [AlreadyConfirmed],
    otherwise move it to Verified.  [decode] is the token codec of
    section 4.1, giving the address a valid token was issued for. *)
Definition confirm_registration (decode : string -> option string)
           (token : string) (users : Store) : ConfirmResult * Store :=
  match decode token with
  | None => (InvalidToken, users)
  | Some e =>
      match find_by_email e users with
      | None => (InvalidToken, users)
      | Some u =>
          if UserModel.is_email_verified u
          then (AlreadyConfirmed, users)
          else (ConfirmSuccess, mark_verified e users)
      end
  end.

End SpecDAO.

(** The confirmation endpoint over the modelled data-access layer. *)
Definition confirm (decode : string -> option string) (token : string)
  : M SpecDAO.Store SpecDAO.ConfirmResult :=
  UserEmailConfirmation_get SpecDAO.Store SpecDAO.ConfirmResult
    (SpecDAO.confirm_registration decode) token.

(** A run of confirmation requests, one after the other. *)
Fixpoint confirm_all (decode : string -> option string) (tokens : list string)
         (w : World SpecDAO.Store) : World SpecDAO.Store :=
  match tokens with
  | [] => w
  | t :: rest => confirm_all decode rest (snd (confirm decode t w))
  end.

(** The login endpoint over the modelled Authenticator. *)
Definition login (RM : ResponseMessagesT)
           (check_password : string -> pyval -> bool)
           (create_access_token : pyval -> Z -> string)
           (application_config : dict) (timestamp : Z -> pyval)
           (request_json : dict) : M SpecDAO.Store response :=
  LoginUser_post SpecDAO.Store RM (SpecDAO.authenticate check_password)
                 create_access_token application_config timestamp request_json.

(** [timedelta(weeks=1)], in microseconds. *)
Definition one_week : Z := 7 * 24 * 60 * 60 * 1000000.

(** ** A sample deployment

    Concrete collaborators on which the handlers can be run: two
    accounts, alice (verified) and bob (not yet verified). *)

Module Sample.

Definition messages : ResponseMessagesT := {|
  USER_ID_IS_NOT_VALID := PStr "User id is not valid.";
  USER_DOES_NOT_EXIST := PStr "User does not exist.";
  USER_IS_NOT_REGISTERED_IN_THE_SYSTEM :=
    PStr "You are not registered in the system.";
  EMAIL_ALREADY_CONFIRMED := PStr "You already confirm your email.";
  EMAIL_VERIFICATION_MESSAGE :=
    PStr "Check your email, a new verification email was sent.";
  USERNAME_FIELD_IS_MISSING := PStr "The field username is missing.";
  PASSWORD_FIELD_IS_MISSING :=
    PList [PStr "Password field is missing";
           PStr "The field password is missing."];
  USERNAME_OR_PASSWORD_FIELD_IS_INCORRECTLY_FILLED_UP :=
    PStr "Username or password is wrong.";
  USER_HAS_NOT_VERIFIED_EMAIL_BEFORE_LOGIN :=
    PStr "Please verify your email before login.";
  USER_NOT_FOUND := PList [PStr "User not found"; PStr "User not found."]
|}.

Definition alice : UserModel.t :=
  UserModel.mk 1 "alice" "a@x.com" "Secret123" "Alice" true.

Definition bob : UserModel.t :=
  UserModel.mk 2 "bob" "b@x.com" "hunter2hunter2" "Bob" false.

Definition users : SpecDAO.Store := [alice; bob].

(** The world at twelve seconds past the epoch, nothing logged yet. *)
Definition world : World SpecDAO.Store := mkWorld users 12000000 [].

Definition get_user (user_id : pyval) (s : SpecDAO.Store)
  : option UserModel.t * SpecDAO.Store :=
  match user_id with
  | PInt n => (find (fun u => UserModel.id u =? n) s, s)
  | _ => (None, s)
  end.

Definition get_user_by_email (email : pyval) (s : SpecDAO.Store)
  : option UserModel.t * SpecDAO.Store :=
  match email with
  | PStr e => (SpecDAO.find_by_email e s, s)
  | _ => (None, s)
  end.

Definition str_field (d : dict) (k : string) : string :=
  match dict_lookup k d with
  | Some (PStr s) => s
  | _ => ""
  end.

(** Registration refuses a taken address with 400 and otherwise
    stores the new, unverified account and answers 200. *)
Definition create_user (data : dict) (s : SpecDAO.Store)
  : response * SpecDAO.Store :=
  match SpecDAO.find_by_email (str_field data "email") s with
  | Some _ =>
      ((message_body (PStr "A user with that email already exists."),
        PInt 400), s)
  | None =>
      ((message_body (PStr "User was created successfully."), PInt 200),
       s ++ [UserModel.mk (Z.of_nat (List.length s) + 1)
                          (str_field data "username")
                          (str_field data "email")
                          (str_field data "password")
                          (str_field data "name") false])
  end.

Definition update_user_profile (user_id : pyval) (data : dict)
           (s : SpecDAO.Store) : response * SpecDAO.Store :=
  ((message_body (PStr "User was updated successfully."), PInt 200), s).

Definition change_password (user_id : pyval) (data : dict)
           (s : SpecDAO.Store) : response * SpecDAO.Store :=
  ((message_body (PStr "Password was updated successfully."), PInt 201), s).

(** A validator that asks for the listed fields. *)
Fixpoint require_fields (fields : list string) (data : dict) : dict :=
  match fields with
  | [] => []
  | f :: rest =>
      match dict_lookup f data with
      | Some _ => require_fields rest data
      | None => [("message", PStr (f ++ " field is missing."))]
      end
  end.

Definition validate_registration : dict -> dict :=
  require_fields ["name"; "username"; "password"; "email"].
Definition validate_update : dict -> dict := require_fields ["name"].
Definition validate_password : dict -> dict :=
  require_fields ["current_password"; "new_password"].
Definition validate_resend : dict -> dict := require_fields ["email"].

Definition marshal (u : UserModel.t) (_ : unit) : pyval :=
  PDict [("id", PInt (UserModel.id u));
         ("username", PStr (UserModel.username u));
         ("name", PStr (UserModel.name u))].

(** Plain-text passwords stand for their hashes. *)
Definition check_password (hash : string) (password : pyval) : bool :=
  match password with
  | PStr p => String.eqb hash p
  | _ => false
  end.

Definition create_access_token (identity : pyval) (issued_at : Z) : string :=
  match identity with
  | PInt 1 => "jwt-for-1"
  | _ => "jwt"
  end.

Definition config : dict := [("JWT_ACCESS_TOKEN_EXPIRES", PTimedelta one_week)].

(** Whole seconds since the epoch. *)
Definition timestamp (t : Z) : pyval := PInt (t / 1000000).

(** A verification token is the address it was issued for, prefixed. *)
Definition decode (token : string) : option string :=
  if String.prefix "v:" token
  then Some (String.substring 2 (String.length token - 2) token)
  else None.

Definition login_request (username password : string) : dict :=
  [("username", PStr username); ("password", PStr password)].

Definition registration (name email : string) : dict :=
  [("name", PStr name); ("username", PStr "carol");
   ("password", PStr "Secret456"); ("email", PStr email)].

(** The handlers wired to these collaborators. *)
Definition other_user_get : pyval -> M SpecDAO.Store response :=
  OtherUser_get SpecDAO.Store messages get_user unit marshal tt.
Definition profile_put : pyval -> dict -> M SpecDAO.Store response :=
  MyUserProfile_put SpecDAO.Store update_user_profile validate_update.
Definition password_put : pyval -> dict -> M SpecDAO.Store response :=
  ChangeUserPassword_put SpecDAO.Store change_password validate_password.
Definition register_post : dict -> M SpecDAO.Store response :=
  UserRegister_post SpecDAO.Store create_user validate_registration.
Definition resend_post : dict -> M SpecDAO.Store response :=
  UserResendEmailConfirmation_post SpecDAO.Store messages get_user_by_email
                                   validate_resend.
Definition login_post : dict -> M SpecDAO.Store response :=
  login messages check_password create_access_token config timestamp.
Definition confirm_get : string -> M SpecDAO.Store SpecDAO.ConfirmResult :=
  confirm decode.

End Sample.

(** ** The remaining handlers of [app/api/resources/user.py] *)

(** The mails a log of events holds, as (name, email), oldest first. *)
Fixpoint mails (es : list Event) : list (pyval * pyval) :=
  match es with
  | [] => []
  | SendEmail name email :: rest => (name, email) :: mails rest
  | DAOCall _ _ :: rest => mails rest
  end.

Section ReadingResources.

Variable Store : Type.
Variable ResponseMessages : ResponseMessagesT.

(** [DAO.list_users(user_id)] and [DAO.list_users(user_id,
    is_verified=True)]: the keyword argument is [None] when the call
    leaves it out. *)
Variable DAO_list_users :
  pyval -> option bool -> Store -> list UserModel.t * Store.
Variable DAO_get_user : pyval -> Store -> option UserModel.t * Store.
Variable DAO_delete_user : pyval -> Store -> response * Store.
Variable DAO_get_user_statistics : pyval -> Store -> pyval * Store.

Variable ApiModel : Type.
Variable marshal : UserModel.t -> ApiModel -> pyval.
(** [marshal(None, model)] *)
Variable marshal_None : ApiModel -> pyval.
Variable public_user_api_model : ApiModel.
Variable full_user_api_model : ApiModel.

(** The decorator [marshal_list_with(model)] on what a handler returns. *)
Definition marshal_list_with (model : ApiModel) (users : list UserModel.t)
  : pyval :=
  PList (map (fun u => marshal u model) users).

(** The decorator [marshal_with(model)] on what a handler returns. *)
Definition marshal_with (model : ApiModel) (user : option UserModel.t)
  : pyval :=
  match user with
  | Some u => marshal u model
  | None => marshal_None model
  end.

(** [UserList.get]; [user_id] is [get_jwt_identity()]. *)
Definition UserList_get (user_id : pyval) : M Store pyval :=
  users <- dao "list_users" [user_id] (DAO_list_users user_id None) ;;
  ret (marshal_list_with public_user_api_model users).

(** [MyUserProfile.get] *)
Definition MyUserProfile_get (user_id : pyval) : M Store pyval :=
  user <- dao "get_user" [user_id] (DAO_get_user user_id) ;;
  ret (marshal_with full_user_api_model user).

(** [MyUserProfile.delete] *)
Definition MyUserProfile_delete (user_id : pyval) : M Store response :=
  dao "delete_user" [user_id] (DAO_delete_user user_id).

(** [VerifiedUser.get] *)
Definition VerifiedUser_get (user_id : pyval) : M Store pyval :=
  users <- dao "list_users" [user_id; PBool true]
               (DAO_list_users user_id (Some true)) ;;
  ret (marshal_list_with public_user_api_model users).

(** [UserHomeStatistics.get] *)
Definition UserHomeStatistics_get (user_id : pyval) : M Store response :=
  stats <- dao "get_user_statistics" [user_id]
               (DAO_get_user_statistics user_id) ;;
  if negb (truthy stats) then
    m <- lift (py_getitem (USER_NOT_FOUND ResponseMessages) 1) ;;
    ret (message_body m, PInt 404)
  else
    ret (stats, PInt 200).

End ReadingResources.

(** Further collaborators for the sample deployment. *)
Module SampleReads.

Definition list_users (user_id : pyval) (is_verified : option bool)
           (s : SpecDAO.Store) : list UserModel.t * SpecDAO.Store :=
  match is_verified with
  | Some true => (filter UserModel.is_email_verified s, s)
  | _ => (s, s)
  end.

Definition delete_user (user_id : pyval) (s : SpecDAO.Store)
  : response * SpecDAO.Store :=
  match user_id with
  | PInt n =>
      ((message_body (PStr "User was deleted successfully."), PInt 200),
       filter (fun u => negb (UserModel.id u =? n)) s)
  | _ => ((message_body (PStr "User does not exist."), PInt 404), s)
  end.

(** Alice has statistics, bob has an empty record, anybody else none. *)
Definition get_user_statistics (user_id : pyval) (s : SpecDAO.Store)
  : pyval * SpecDAO.Store :=
  match user_id with
  | PInt 1 => (PDict [("name", PStr "Alice"); ("pending_requests", PInt 2)], s)
  | PInt 2 => (PDict [], s)
  | _ => (PNone, s)
  end.

Definition home_get : pyval -> M SpecDAO.Store response :=
  UserHomeStatistics_get SpecDAO.Store Sample.messages get_user_statistics.

(** A registration payload that a validator asking only for a username
    lets through. *)
Definition validate_username_only : dict -> dict :=
  Sample.require_fields ["username"].

Definition lax_register_post : dict -> M SpecDAO.Store response :=
  UserRegister_post SpecDAO.Store Sample.create_user validate_username_only.

(** A resend validator that accepts every payload. *)
Definition validate_nothing (_ : dict) : dict := [].

Definition lax_resend_post : dict -> M SpecDAO.Store response :=
  UserResendEmailConfirmation_post SpecDAO.Store Sample.messages
                                   Sample.get_user_by_email validate_nothing.

End SampleReads.

(** ** Timestamps and the route of [OtherUser] *)

(** [n / d] rounded to the nearest integer, ties to even; [d] positive. *)
Definition round_half_even (n d : Z) : Z :=
  let q := n / d in
  match 2 * (n mod d) ?= d with
  | Lt => q
  | Gt => q + 1
  | Eq => if Z.even q then q else q + 1
  end.

(** The integer part of the binary logarithm of [n / d]; both positive. *)
Definition log2_ratio (n d : Z) : Z :=
  let k := Z.log2 n - Z.log2 d in
  let below := if 0 <=? k then n <? d * 2 ^ k else n * 2 ^ (- k) <? d in
  if below then k - 1 else k.

(** The double nearest to [n / d] ([d] positive), as IEEE 754 rounds:
    53 bits of mantissa, ties to even, exponents from -1074 to 971. *)
Definition binary64_of_ratio (n d : Z) : pyfloat :=
  if n =? 0 then FFinite 0 0
  else
    let a := Z.abs n in
    let e := Z.max (log2_ratio a d - 52) (-1074) in
    let m := if 0 <=? e then round_half_even a (d * 2 ^ e)
             else round_half_even (a * 2 ^ (- e)) d in
    let e' := if m =? 2 ^ 53 then e + 1 else e in
    let m' := if m =? 2 ^ 53 then 2 ^ 52 else m in
    if m' =? 0 then FFinite 0 0
    else if 971 <? e' then FInfinity (n <? 0)
    else FFinite (Z.sgn n * m') e'.

(** The double of an integer. *)
Definition float_of_int (z : Z) : pyfloat := binary64_of_ratio z 1.

(** [f + g] on doubles. *)
Definition float_add (f g : pyfloat) : pyfloat :=
  match f, g with
  | FNaN, _ => FNaN
  | _, FNaN => FNaN
  | FInfinity s, FInfinity s' => if Bool.eqb s s' then FInfinity s else FNaN
  | FInfinity s, FFinite _ _ => FInfinity s
  | FFinite _ _, FInfinity s => FInfinity s
  | FFinite m e, FFinite m' e' =>
      let e0 := Z.min e e' in
      let n := m * 2 ^ (e - e0) + m' * 2 ^ (e' - e0) in
      if 0 <=? e0 then binary64_of_ratio (n * 2 ^ e0) 1
      else binary64_of_ratio n (2 ^ (- e0))
  end.

(** [datetime.timestamp()] of a naive datetime, given as microseconds
    of wall-clock time: the standard library reads the value as local
    time, so the seconds are moved by the offset of the server's zone
    ([utcoffset], seconds east of UTC at a local wall-clock second), and
    the result is the double [seconds + microsecond / 1e6]. *)
Definition naive_timestamp (utcoffset : Z -> Z) (t : Z) : pyval :=
  let seconds := t / 1000000 in
  let microsecond := t mod 1000000 in
  PFloat (float_add (float_of_int (seconds - utcoffset seconds))
                    (binary64_of_ratio microsecond 1000000)).

(** Whether a double is exactly the integer [z]. *)
Definition float_is_int (f : pyfloat) (z : Z) : bool :=
  match f with
  | FFinite m e => if 0 <=? e then m * 2 ^ e =? z else m =? z * 2 ^ (- e)
  | _ => false
  end.


(** Whether a character is one of the digits 0 to 9. *)
Definition is_digit (c : Ascii.ascii) : bool :=
  let n := Z.of_N (Ascii.N_of_ascii c) in
  (48 <=? n) && (n <=? 57).

Fixpoint digits_value (acc : Z) (s : string) : option Z :=
  match s with
  | EmptyString => Some acc
  | String c rest =>
      if is_digit c
      then digits_value (10 * acc + (Z.of_N (Ascii.N_of_ascii c) - 48)) rest
      else None
  end.

(** The [int] converter of the route [users/<int:user_id>]: it matches a
    non-empty run of digits and hands the handler its value as an
    [int]; anything else does not match.  A segment is a string of
    characters with code points below 256. *)
Definition int_converter (segment : string) : option Z :=
  match segment with
  | EmptyString => None
  | String _ _ => digits_value 0 segment
  end.

Section Routing.

Variable Store : Type.
Variable ResponseMessages : ResponseMessagesT.
Variable DAO_list_users :
  pyval -> option bool -> Store -> list UserModel.t * Store.
Variable DAO_get_user : pyval -> Store -> option UserModel.t * Store.
Variable ApiModel : Type.
Variable marshal : UserModel.t -> ApiModel -> pyval.
Variable public_user_api_model : ApiModel.

(** The body of the 404 with which the framework answers a path that no
    route matches. *)
Variable router_not_found : pyval.

(** A request [GET users/<segment>] by a caller whose token carries
    [identity], as the routes of this module dispatch it:
    [users/verified] goes to [VerifiedUser.get] (answered 200, the
    status of a handler that returns only a body),
    [users/<int:user_id>] to [OtherUser.get] with the converted id, and
    any other segment is answered by the router. *)
Definition GET_users_segment (identity : pyval) (segment : string)
  : M Store response :=
  if String.eqb segment "verified" then
    body <- VerifiedUser_get Store DAO_list_users ApiModel marshal
                             public_user_api_model identity ;;
    ret (body, PInt 200)
  else
    match int_converter segment with
    | Some user_id =>
        OtherUser_get Store ResponseMessages DAO_get_user ApiModel marshal
                      public_user_api_model (PInt user_id)
    | None => ret (router_not_found, PInt 404)
    end.

End Routing.

(** The sample deployment on a server whose local zone is one hour east
    of UTC, and its routing. *)
Module SampleServer.

Definition utc_plus_1 (_ : Z) : Z := 3600.

Definition utc (_ : Z) : Z := 0.

(** 2019-06-01 00:00:00 UTC, nothing logged yet. *)
Definition world_2019 : World SpecDAO.Store :=
  mkWorld Sample.users (1559347200 * 1000000) [].

Definition login_post_in (utcoffset : Z -> Z)
  : dict -> M SpecDAO.Store response :=
  login Sample.messages Sample.check_password Sample.create_access_token
        Sample.config (naive_timestamp utcoffset).

(** The login endpoint when tokens are configured never to expire. *)
Definition login_post_no_expiry : dict -> M SpecDAO.Store response :=
  login Sample.messages Sample.check_password Sample.create_access_token
        [("JWT_ACCESS_TOKEN_EXPIRES", PBool false)] Sample.timestamp.

Definition not_found : pyval :=
  message_body (PStr "The requested URL was not found on the server.").

Definition get_users_segment : pyval -> string -> M SpecDAO.Store response :=
  GET_users_segment SpecDAO.Store Sample.messages SampleReads.list_users
                    Sample.get_user unit Sample.marshal tt not_found.

End SampleServer.

(** ** Properties of the handlers *)

Ltac run :=
  cbv beta delta [bind ret lift dao send_email_verification_message
                  utcnow dict_item datetime_add record]; cbn.

Section ResourceProperties.

Variable Store : Type.
Variable ResponseMessages : ResponseMessagesT.
Variable DAO_get_user : pyval -> Store -> option UserModel.t * Store.
Variable DAO_update_user_profile : pyval -> dict -> Store -> response * Store.
Variable DAO_change_password : pyval -> dict -> Store -> response * Store.
Variable DAO_create_user : dict -> Store -> response * Store.
Variable DAO_get_user_by_email : pyval -> Store -> option UserModel.t * Store.
Variable DAO_authenticate : pyval -> pyval -> Store -> option UserModel.t * Store.
Variable validate_update_profile_request_data : dict -> dict.
Variable validate_new_password : dict -> dict.
Variable validate_user_registration_request_data : dict -> dict.
Variable validate_resend_email_request_data : dict -> dict.
Variable ApiModel : Type.
Variable marshal : UserModel.t -> ApiModel -> pyval.
Variable public_user_api_model : ApiModel.
Variable create_access_token : pyval -> Z -> string.
Variable application_config : dict.
Variable timestamp : Z -> pyval.

Local Abbreviation other_user_get :=
  (OtherUser_get Store ResponseMessages DAO_get_user ApiModel marshal
                 public_user_api_model).
Local Abbreviation profile_put :=
  (MyUserProfile_put Store DAO_update_user_profile
                     validate_update_profile_request_data).
Local Abbreviation password_put :=
  (ChangeUserPassword_put Store DAO_change_password validate_new_password).
Local Abbreviation register_post :=
  (UserRegister_post Store DAO_create_user
                     validate_user_registration_request_data).
Local Abbreviation resend_post :=
  (UserResendEmailConfirmation_post Store ResponseMessages
     DAO_get_user_by_email validate_resend_email_request_data).
Local Abbreviation login_post :=
  (LoginUser_post Store ResponseMessages DAO_authenticate
                  create_access_token application_config timestamp).

(** C10: when [OtherUser.get] is given an [int] id and [DAO.get_user]
    finds the user, the status returned is 201 (and so not 200), next
    to the user marshalled through the public model; the store was
    consulted exactly once, by that call. *)
Theorem get_user_by_id_success_is_201 (user_id : pyval) (u : UserModel.t)
        (w : World Store) :
  isinstance_int user_id = true ->
  fst (DAO_get_user user_id (db w)) = Some u ->
  other_user_get user_id w =
    (Returned (marshal u public_user_api_model, PInt 201),
     after_call w (snd (DAO_get_user user_id (db w))) "get_user" [user_id])
  /\ PInt 201 <> PInt 200.
Proof.
  intros Hint Hu. unfold OtherUser_get, OtherUser_validate_param, after_call.
  rewrite Hint. run.
  destruct (DAO_get_user user_id (db w)) as [r s]; cbn in *. subst r.
  split; [reflexivity | discriminate].
Qed.

(** C8: when the validator of an update-profile, change-password or
    registration request returns a non-empty dict of errors, the
    handler returns that dict with 400 and leaves the world as it
    found it: no call to the DAO is logged, the store is the same and
    no mail is sent. *)
Theorem validation_error_short_circuits (user_id : pyval) (data : dict)
        (w : World Store) :
  (validate_update_profile_request_data data <> [] ->
   profile_put user_id data w =
     (Returned (PDict (validate_update_profile_request_data data), PInt 400),
      w))
  /\ (validate_new_password data <> [] ->
      password_put user_id data w =
        (Returned (PDict (validate_new_password data), PInt 400), w))
  /\ (validate_user_registration_request_data data <> [] ->
      register_post data w =
        (Returned (PDict (validate_user_registration_request_data data),
                   PInt 400), w)).
Proof.
  unfold MyUserProfile_put, ChangeUserPassword_put, UserRegister_post.
  repeat split; intros H.
  - destruct (validate_update_profile_request_data data);
      [congruence | reflexivity].
  - destruct (validate_new_password data); [congruence | reflexivity].
  - destruct (validate_user_registration_request_data data);
      [congruence | reflexivity].
Qed.

(** C4: for a registration request that passes validation (and so
    carries a name and an email), [UserRegister.post] calls
    [DAO.create_user] once, returns its result, and sends the
    verification mail for that name and email exactly when the status
    of the result [is 200]; otherwise nothing is sent. *)
Theorem register_sends_mail_iff_status_is_200 (data : dict)
        (name email : pyval) (w : World Store) :
  validate_user_registration_request_data data = [] ->
  dict_lookup "name" data = Some name ->
  dict_lookup "email" data = Some email ->
  let result := fst (DAO_create_user data (db w)) in
  let w' := after_call w (snd (DAO_create_user data (db w)))
                       "create_user" [PDict data] in
  register_post data w =
    (Returned result,
     if is_small_int (snd result) 200
     then record (SendEmail name email) w'
     else w')
  /\ (In (SendEmail name email)
         (skipn (List.length (events w))
                (events (snd (register_post data w))))
      <-> is_small_int (snd result) 200 = true).
Proof.
  intros Hv Hn He result w'.
  assert (Hrun : register_post data w =
    (Returned result,
     if is_small_int (snd result) 200
     then record (SendEmail name email) w' else w')).
  { subst result w'. unfold UserRegister_post, after_call.
    rewrite Hv. run. rewrite Hn, He.
    destruct (DAO_create_user data (db w)) as [r s]; cbn.
    destruct (is_small_int (snd r) 200); reflexivity. }
  split; [exact Hrun |].
  rewrite Hrun. subst w'. unfold after_call, record.
  destruct (is_small_int (snd result) 200); cbn.
  - rewrite <- app_assoc, skipn_app, skipn_all, Nat.sub_diag. cbn.
    split; auto.
  - rewrite skipn_app, skipn_all, Nat.sub_diag. cbn.
    split; [intros [H | []]; discriminate | discriminate].
Qed.

(** C5: for a resend request that passes validation and carries an
    email, [UserResendEmailConfirmation.post] looks the user up by
    that email and answers, in this order: 404 with the
    not-registered message when there is no such user; 403 with the
    already-confirmed message when the user's email is verified; and
    otherwise sends the verification mail to that user and answers
    200.  In the two failing cases no mail is sent. *)
Theorem resend_verification_outcomes (data : dict) (email : pyval)
        (w : World Store) :
  validate_resend_email_request_data data = [] ->
  dict_lookup "email" data = Some email ->
  let found := fst (DAO_get_user_by_email email (db w)) in
  let w' := after_call w (snd (DAO_get_user_by_email email (db w)))
                       "get_user_by_email" [email] in
  (found = None ->
   resend_post data w =
     (Returned (message_body
                  (USER_IS_NOT_REGISTERED_IN_THE_SYSTEM ResponseMessages),
                PInt 404), w'))
  /\ (forall user, found = Some user ->
      UserModel.is_email_verified user = true ->
      resend_post data w =
        (Returned (message_body (EMAIL_ALREADY_CONFIRMED ResponseMessages),
                   PInt 403), w'))
  /\ (forall user, found = Some user ->
      UserModel.is_email_verified user = false ->
      resend_post data w =
        (Returned (message_body (EMAIL_VERIFICATION_MESSAGE ResponseMessages),
                   PInt 200),
         record (SendEmail (PStr (UserModel.name user)) email) w')).
Proof.
  intros Hv He found w'. subst found w'.
  unfold UserResendEmailConfirmation_post, after_call.
  rewrite Hv. run. rewrite He. cbn.
  destruct (DAO_get_user_by_email email (db w)) as [r s]; cbn.
  repeat split.
  - intros ->. reflexivity.
  - intros user -> ->. reflexivity.
  - intros user -> ->. reflexivity.
Qed.

(** C1: [LoginUser.post] checks in this order and answers with the
    first failure: a username that is absent or falsy, 400 with the
    username-missing message; a password that is absent or falsy, 400
    with the password-missing message; credentials [DAO.authenticate]
    rejects, 404 with the wrong-username-or-password message; an
    authenticated user whose email is not verified, 403; and otherwise
    200 with an access token created for the user's id and the
    timestamp of the current time plus the configured lifetime. *)
Theorem login_checks_in_order (request_json : dict) (w : World Store) :
  let username := dict_get request_json "username" PNone in
  let password := dict_get request_json "password" PNone in
  let user := fst (DAO_authenticate username password (db w)) in
  let w' := after_call w (snd (DAO_authenticate username password (db w)))
                       "authenticate" [username; password] in
  (truthy username = false ->
   login_post request_json w =
     (Returned (message_body (USERNAME_FIELD_IS_MISSING ResponseMessages),
                PInt 400), w))
  /\ (forall m, truthy username = true -> truthy password = false ->
      py_getitem (PASSWORD_FIELD_IS_MISSING ResponseMessages) 1 = Returned m ->
      login_post request_json w = (Returned (message_body m, PInt 400), w))
  /\ (truthy username = true -> truthy password = true ->
      user = None ->
      login_post request_json w =
        (Returned (message_body
                     (USERNAME_OR_PASSWORD_FIELD_IS_INCORRECTLY_FILLED_UP
                        ResponseMessages), PInt 404), w'))
  /\ (forall u, truthy username = true -> truthy password = true ->
      user = Some u -> UserModel.is_email_verified u = false ->
      login_post request_json w =
        (Returned (message_body
                     (USER_HAS_NOT_VERIFIED_EMAIL_BEFORE_LOGIN
                        ResponseMessages), PInt 403), w'))
  /\ (forall u ttl, truthy username = true -> truthy password = true ->
      user = Some u -> UserModel.is_email_verified u = true ->
      dict_lookup "JWT_ACCESS_TOKEN_EXPIRES" application_config
        = Some (PTimedelta ttl) ->
      login_post request_json w =
        (Returned (PDict [("access_token",
                           PStr (create_access_token
                                   (PInt (UserModel.id u)) (clock w)));
                          ("expiry", timestamp (clock w + ttl))],
                   PInt 200), w')).
Proof.
  intros username password user w'. subst username password user w'.
  unfold LoginUser_post, after_call.
  repeat split.
  - intros ->. reflexivity.
  - intros m -> -> Hm. run. rewrite Hm. reflexivity.
  - intros -> ->. run.
    destruct (DAO_authenticate _ _ (db w)) as [r s]; cbn.
    intros ->. reflexivity.
  - intros u -> ->. run.
    destruct (DAO_authenticate _ _ (db w)) as [r s]; cbn.
    intros -> ->. reflexivity.
  - intros u ttl -> ->. run.
    destruct (DAO_authenticate _ _ (db w)) as [r s]; cbn.
    intros -> -> Hc. unfold dict_get. rewrite Hc. reflexivity.
Qed.

(** C9: a login request whose username is present but the empty
    string is answered 400 with the username-missing message, as one
    with no username at all is, whatever the password (so also when
    both are empty); one whose username is truthy and whose password
    is present but empty is answered 400 with the password-missing
    message.  In each of these cases the world is left as it was: the
    Authenticator is not consulted. *)
Theorem login_empty_field_is_missing (request_json : dict) (w : World Store) :
  let username_missing :=
    (Returned (message_body (USERNAME_FIELD_IS_MISSING ResponseMessages),
               PInt 400), w) in
  (dict_lookup "username" request_json = Some (PStr "") ->
   login_post request_json w = username_missing)
  /\ (dict_lookup "username" request_json = None ->
      login_post request_json w = username_missing)
  /\ (dict_lookup "username" request_json = Some (PStr "") ->
      dict_lookup "password" request_json = Some (PStr "") ->
      login_post request_json w = username_missing)
  /\ (truthy (dict_get request_json "username" PNone) = true ->
      dict_lookup "password" request_json = Some (PStr "") ->
      snd (login_post request_json w) = w
      /\ forall m,
          py_getitem (PASSWORD_FIELD_IS_MISSING ResponseMessages) 1
            = Returned m ->
          login_post request_json w =
            (Returned (message_body m, PInt 400), w)).
Proof.
  intros username_missing. subst username_missing.
  unfold LoginUser_post, dict_get.
  split; [| split; [| split]].
  - intros ->. reflexivity.
  - intros ->. reflexivity.
  - intros -> _. reflexivity.
  - intros -> ->. run. split.
    + destruct (py_getitem _ 1); reflexivity.
    + intros m ->. reflexivity.
Qed.

End ResourceProperties.

(** ** Properties of the account life cycle over the modelled DAO *)

Section AccountLifecycle.

Import SpecDAO.

Lemma find_absent {A : Type} (f : A -> bool) (l : list A) :
  (forall x, In x l -> f x = false) -> find f l = None.
Proof.
  induction l as [| a l IH]; cbn; intros H; [reflexivity |].
  rewrite (H a (or_introl eq_refl)). apply IH.
  intros x Hx. apply H. right. exact Hx.
Qed.

Lemma lookup_user_unknown (i : string) (users : Store) :
  (forall u, In u users ->
             UserModel.username u <> i /\ UserModel.email u <> i) ->
  lookup_user i users = None.
Proof.
  intros H. unfold lookup_user, find_by_username, find_by_email.
  rewrite !find_absent; [reflexivity | |];
    intros u Hu; apply String.eqb_neq; apply (H u Hu).
Qed.

Lemma find_by_email_marked (e : string) (users : Store) :
  find_by_email e (mark_verified e users) =
    option_map set_verified (find_by_email e users).
Proof.
  unfold find_by_email.
  induction users as [| u rest IH]; cbn; [reflexivity |].
  destruct (String.eqb (UserModel.email u) e) eqn:E; cbn; rewrite E.
  - reflexivity.
  - exact IH.
Qed.

Lemma find_by_email_other (e e' : string) (users : Store) :
  e <> e' ->
  find_by_email e (mark_verified e' users) = find_by_email e users.
Proof.
  intros Hne. unfold find_by_email.
  induction users as [| u rest IH]; cbn; [reflexivity |].
  destruct (String.eqb (UserModel.email u) e') eqn:E'; cbn.
  - apply String.eqb_eq in E'.
    assert (En : String.eqb (UserModel.email u) e = false)
      by (apply String.eqb_neq; congruence).
    rewrite En. reflexivity.
  - rewrite IH. reflexivity.
Qed.

Variable decode : string -> option string.

(** A verified account stays as it is under any confirmation. *)
Lemma verified_preserved (e : string) (v : UserModel.t) (token : string)
      (users : Store) :
  find_by_email e users = Some v ->
  UserModel.is_email_verified v = true ->
  find_by_email e (snd (confirm_registration decode token users)) = Some v.
Proof.
  intros Hf Hv. unfold confirm_registration.
  destruct (decode token) as [e' |]; [| exact Hf].
  destruct (find_by_email e' users) as [u' |] eqn:Hf'; [| exact Hf].
  destruct (UserModel.is_email_verified u') eqn:Hv'; [exact Hf |].
  cbn [snd]. destruct (String.eqb e e') eqn:E.
  - apply String.eqb_eq in E. subst e'. congruence.
  - apply String.eqb_neq in E. rewrite find_by_email_other; assumption.
Qed.

Lemma confirm_db (token : string) (w : World Store) :
  db (snd (confirm decode token w)) =
    snd (confirm_registration decode token (db w)).
Proof.
  unfold confirm, UserEmailConfirmation_get, dao.
  destruct (confirm_registration decode token (db w)); reflexivity.
Qed.

Lemma confirm_result (token : string) (w : World Store) :
  fst (confirm decode token w) =
    Returned (fst (confirm_registration decode token (db w))).
Proof.
  unfold confirm, UserEmailConfirmation_get, dao.
  destruct (confirm_registration decode token (db w)); reflexivity.
Qed.

Lemma verified_preserved_all (e : string) (v : UserModel.t)
      (tokens : list string) (w : World Store) :
  find_by_email e (db w) = Some v ->
  UserModel.is_email_verified v = true ->
  find_by_email e (db (confirm_all decode tokens w)) = Some v.
Proof.
  revert w. induction tokens as [| t rest IH]; cbn; intros w Hf Hv.
  - exact Hf.
  - apply IH; [| exact Hv]. rewrite confirm_db.
    apply verified_preserved; assumption.
Qed.

Lemma confirm_verified_rejected (e : string) (v : UserModel.t)
      (token : string) (users : Store) :
  decode token = Some e ->
  find_by_email e users = Some v ->
  UserModel.is_email_verified v = true ->
  confirm_registration decode token users = (AlreadyConfirmed, users).
Proof.
  intros Hd Hf Hv. unfold confirm_registration.
  rewrite Hd, Hf, Hv. reflexivity.
Qed.

(** C2: when a confirmation succeeds, the token resolved to an account
    that was Unverified and is Verified afterwards; and from then on,
    after any further run of confirmation requests, every valid token
    for that account is answered [AlreadyConfirmed], leaves the store
    as it is, and the account is still the same Verified record. *)
Theorem confirmation_is_one_way (token : string) (w : World Store) :
  fst (confirm decode token w) = Returned ConfirmSuccess ->
  exists e u,
    decode token = Some e
    /\ find_by_email e (db w) = Some u
    /\ UserModel.is_email_verified u = false
    /\ find_by_email e (db (snd (confirm decode token w)))
         = Some (set_verified u)
    /\ forall (later : list string) (token' : string),
        decode token' = Some e ->
        let w2 := confirm_all decode later (snd (confirm decode token w)) in
        fst (confirm decode token' w2) = Returned AlreadyConfirmed
        /\ db (snd (confirm decode token' w2)) = db w2
        /\ find_by_email e (db w2) = Some (set_verified u).
Proof.
  rewrite confirm_result. intros H. injection H as H.
  assert (Hstep : exists e u,
             decode token = Some e
             /\ find_by_email e (db w) = Some u
             /\ UserModel.is_email_verified u = false
             /\ snd (confirm_registration decode token (db w))
                  = mark_verified e (db w)).
  { unfold confirm_registration in *.
    destruct (decode token) as [e |]; [| discriminate].
    destruct (find_by_email e (db w)) as [u |] eqn:Hf; [| discriminate].
    destruct (UserModel.is_email_verified u) eqn:Hv; [discriminate |].
    exists e, u. repeat split; reflexivity || assumption. }
  destruct Hstep as (e & u & Hd & Hf & Hv & Hs).
  exists e, u.
  assert (Hnow : find_by_email e (db (snd (confirm decode token w)))
                 = Some (set_verified u))
    by (rewrite confirm_db, Hs, find_by_email_marked, Hf; reflexivity).
  split; [exact Hd |]. split; [exact Hf |]. split; [exact Hv |].
  split; [exact Hnow |].
  intros later token' Hd' w2.
  assert (Hw2 : find_by_email e (db w2) = Some (set_verified u))
    by (apply verified_preserved_all; [exact Hnow | reflexivity]).
  rewrite confirm_result, confirm_db.
  rewrite (confirm_verified_rejected e (set_verified u) token' (db w2)
                                     Hd' Hw2 eq_refl).
  repeat split. exact Hw2.
Qed.

End AccountLifecycle.

Section Authentication.

Import SpecDAO.

Variable ResponseMessages : ResponseMessagesT.
Variable check_password : string -> pyval -> bool.
Variable create_access_token : pyval -> Z -> string.
Variable application_config : dict.
Variable timestamp : Z -> pyval.

Local Abbreviation login_post :=
  (login ResponseMessages check_password create_access_token
         application_config timestamp).

(** The Authenticator only reads the store. *)
Lemma authenticate_read_only (identifier password : pyval) (users : Store) :
  snd (authenticate check_password identifier password users) = users.
Proof.
  unfold authenticate.
  destruct identifier; try reflexivity.
  destruct (lookup_user s users) as [u |]; [| reflexivity].
  destruct (check_password (UserModel.password_hash u) password);
    reflexivity.
Qed.

(** A login request that gets past the missing-field checks and is
    turned down by the Authenticator is answered 404 with the
    wrong-username-or-password message. *)
Lemma login_rejected (request_json : dict) (w : World Store) :
  truthy (dict_get request_json "username" PNone) = true ->
  truthy (dict_get request_json "password" PNone) = true ->
  fst (authenticate check_password
         (dict_get request_json "username" PNone)
         (dict_get request_json "password" PNone) (db w)) = None ->
  fst (login_post request_json w) =
    Returned (message_body
                (USERNAME_OR_PASSWORD_FIELD_IS_INCORRECTLY_FILLED_UP
                   ResponseMessages), PInt 404)
  /\ db (snd (login_post request_json w)) = db w.
Proof.
  intros Hu Hp Ha. unfold login, LoginUser_post. rewrite Hu, Hp. run.
  pose proof (authenticate_read_only
                (dict_get request_json "username" PNone)
                (dict_get request_json "password" PNone) (db w)) as Hs.
  destruct (authenticate _ _ _ (db w)) as [r s]; cbn in *.
  subst r s. split; reflexivity.
Qed.

(** C3: a login with an identifier that matches no stored user and a
    login with a known identifier but a password that does not match
    its hash get the same answer: 404 with the one
    wrong-username-or-password message; both leave the store as it
    was. *)
Theorem login_failures_indistinguishable
        (unknown known : dict) (i1 i2 : string) (u : UserModel.t)
        (w : World Store) :
  dict_get unknown "username" PNone = PStr i1 ->
  dict_get known "username" PNone = PStr i2 ->
  i1 <> "" -> i2 <> "" ->
  truthy (dict_get unknown "password" PNone) = true ->
  truthy (dict_get known "password" PNone) = true ->
  (forall v, In v (db w) ->
             UserModel.username v <> i1 /\ UserModel.email v <> i1) ->
  lookup_user i2 (db w) = Some u ->
  check_password (UserModel.password_hash u)
                 (dict_get known "password" PNone) = false ->
  fst (login_post unknown w) = fst (login_post known w)
  /\ fst (login_post known w) =
       Returned (message_body
                   (USERNAME_OR_PASSWORD_FIELD_IS_INCORRECTLY_FILLED_UP
                      ResponseMessages), PInt 404)
  /\ db (snd (login_post unknown w)) = db w
  /\ db (snd (login_post known w)) = db w.
Proof.
  intros Hi1 Hi2 Hn1 Hn2 Hp1 Hp2 Hnone Hsome Hwrong.
  assert (Ht : forall i, i <> "" -> truthy (PStr i) = true)
    by (intros [| c i]; [congruence | reflexivity]).
  destruct (login_rejected unknown w) as [R1 S1].
  { rewrite Hi1. apply Ht, Hn1. }
  { exact Hp1. }
  { rewrite Hi1. unfold authenticate.
    rewrite (lookup_user_unknown i1 (db w) Hnone). reflexivity. }
  destruct (login_rejected known w) as [R2 S2].
  { rewrite Hi2. apply Ht, Hn2. }
  { exact Hp2. }
  { rewrite Hi2. unfold authenticate. rewrite Hsome, Hwrong. reflexivity. }
  rewrite R1, R2. repeat split; assumption.
Qed.

End Authentication.

(** ** The properties on the sample deployment *)

Section SampleRuns.

Import Sample.

Local Abbreviation said := (fun (m : string) (status : Z) =>
  Returned (message_body (PStr m), PInt status)).

(** Asking for the user with id 2 gives bob, with status 201. *)
Lemma get_user_by_id_success_is_201_sample :
  isinstance_int (PInt 2) = true
  /\ fst (get_user (PInt 2) users) = Some bob
  /\ fst (other_user_get (PInt 2) world) =
       Returned (marshal bob tt, PInt 201).
Proof.
  split; [reflexivity | split; [reflexivity |]].
  exact (f_equal fst
           (proj1 (get_user_by_id_success_is_201 SpecDAO.Store messages
                     get_user unit marshal tt (PInt 2) bob world
                     eq_refl eq_refl))).
Defined.

(** An empty payload fails all three validators; nothing is logged and
    the store still holds alice and bob only. *)
Lemma validation_error_short_circuits_sample :
  profile_put (PInt 1) [] world =
    (Returned (PDict [("message", PStr "name field is missing.")], PInt 400),
     world)
  /\ password_put (PInt 1) [] world =
       (Returned (PDict [("message",
                          PStr "current_password field is missing.")],
                  PInt 400), world)
  /\ register_post [] world =
       (Returned (PDict [("message", PStr "name field is missing.")],
                  PInt 400), world).
Proof.
  pose proof (validation_error_short_circuits SpecDAO.Store
                update_user_profile change_password create_user
                validate_update validate_password validate_registration
                (PInt 1) [] world) as (H1 & H2 & H3).
  split; [| split].
  - apply H1. discriminate.
  - apply H2. discriminate.
  - apply H3. discriminate.
Defined.

(** Carol's registration is stored with status 200 and her mail goes
    out; a registration with alice's address is refused with 400 and
    no mail goes out. *)
Lemma register_sends_mail_iff_status_is_200_sample :
  events (snd (register_post (registration "Carol" "c@x.com") world)) =
    [DAOCall "create_user" [PDict (registration "Carol" "c@x.com")];
     SendEmail (PStr "Carol") (PStr "c@x.com")]
  /\ events (snd (register_post (registration "Al" "a@x.com") world)) =
       [DAOCall "create_user" [PDict (registration "Al" "a@x.com")]].
Proof.
  split.
  - exact (f_equal (fun r => events (snd r))
             (proj1 (register_sends_mail_iff_status_is_200 SpecDAO.Store
                       create_user validate_registration
                       (registration "Carol" "c@x.com")
                       (PStr "Carol") (PStr "c@x.com") world
                       eq_refl eq_refl eq_refl))).
  - exact (f_equal (fun r => events (snd r))
             (proj1 (register_sends_mail_iff_status_is_200 SpecDAO.Store
                       create_user validate_registration
                       (registration "Al" "a@x.com")
                       (PStr "Al") (PStr "a@x.com") world
                       eq_refl eq_refl eq_refl))).
Defined.

(** Nobody has the address z@x.com; alice is verified; bob is not and
    gets a new mail. *)
Lemma resend_verification_outcomes_sample :
  resend_post [("email", PStr "z@x.com")] world =
    (said "You are not registered in the system." 404,
     mkWorld users 12000000
             [DAOCall "get_user_by_email" [PStr "z@x.com"]])
  /\ resend_post [("email", PStr "a@x.com")] world =
       (said "You already confirm your email." 403,
        mkWorld users 12000000
                [DAOCall "get_user_by_email" [PStr "a@x.com"]])
  /\ resend_post [("email", PStr "b@x.com")] world =
       (said "Check your email, a new verification email was sent." 200,
        mkWorld users 12000000
                [DAOCall "get_user_by_email" [PStr "b@x.com"];
                 SendEmail (PStr "Bob") (PStr "b@x.com")]).
Proof.
  split; [| split].
  - exact (proj1 (resend_verification_outcomes SpecDAO.Store messages
                    get_user_by_email validate_resend
                    [("email", PStr "z@x.com")] (PStr "z@x.com") world
                    eq_refl eq_refl) eq_refl).
  - exact (proj1 (proj2 (resend_verification_outcomes SpecDAO.Store messages
                    get_user_by_email validate_resend
                    [("email", PStr "a@x.com")] (PStr "a@x.com") world
                    eq_refl eq_refl)) alice eq_refl eq_refl).
  - exact (proj2 (proj2 (resend_verification_outcomes SpecDAO.Store messages
                    get_user_by_email validate_resend
                    [("email", PStr "b@x.com")] (PStr "b@x.com") world
                    eq_refl eq_refl)) bob eq_refl eq_refl).
Defined.

(** The five outcomes of a login: no username, no password, a wrong
    password for alice, bob who has not confirmed his address, and
    alice with her password, twelve seconds past the epoch. *)
Lemma login_checks_in_order_sample :
  login_post [("password", PStr "Secret123")] world =
    (said "The field username is missing." 400, world)
  /\ login_post [("username", PStr "alice")] world =
       (said "The field password is missing." 400, world)
  /\ fst (login_post (login_request "alice" "nope") world) =
       said "Username or password is wrong." 404
  /\ fst (login_post (login_request "bob" "hunter2hunter2") world) =
       said "Please verify your email before login." 403
  /\ fst (login_post (login_request "alice" "Secret123") world) =
       Returned (PDict [("access_token", PStr "jwt-for-1");
                        ("expiry", PInt 604812)], PInt 200).
Proof.
  split; [| split; [| split; [| split]]].
  - destruct (login_checks_in_order SpecDAO.Store messages
                (SpecDAO.authenticate check_password) create_access_token
                config timestamp [("password", PStr "Secret123")] world)
      as (H & _).
    exact (H eq_refl).
  - destruct (login_checks_in_order SpecDAO.Store messages
                (SpecDAO.authenticate check_password) create_access_token
                config timestamp [("username", PStr "alice")] world)
      as (_ & H & _).
    exact (H (PStr "The field password is missing.")
             eq_refl eq_refl eq_refl).
  - destruct (login_checks_in_order SpecDAO.Store messages
                (SpecDAO.authenticate check_password) create_access_token
                config timestamp (login_request "alice" "nope") world)
      as (_ & _ & H & _).
    exact (f_equal fst (H eq_refl eq_refl eq_refl)).
  - destruct (login_checks_in_order SpecDAO.Store messages
                (SpecDAO.authenticate check_password) create_access_token
                config timestamp (login_request "bob" "hunter2hunter2")
                world)
      as (_ & _ & _ & H & _).
    exact (f_equal fst (H bob eq_refl eq_refl eq_refl eq_refl)).
  - destruct (login_checks_in_order SpecDAO.Store messages
                (SpecDAO.authenticate check_password) create_access_token
                config timestamp (login_request "alice" "Secret123") world)
      as (_ & _ & _ & _ & H).
    exact (f_equal fst
             (H alice one_week eq_refl eq_refl eq_refl eq_refl eq_refl)).
Defined.

(** An empty username, with or without an empty password, and an
    empty password next to a username. *)
Lemma login_empty_field_is_missing_sample :
  login_post (login_request "" "Secret123") world =
    (said "The field username is missing." 400, world)
  /\ login_post (login_request "" "") world =
       (said "The field username is missing." 400, world)
  /\ login_post (login_request "alice" "") world =
       (said "The field password is missing." 400, world).
Proof.
  split; [| split].
  - destruct (login_empty_field_is_missing SpecDAO.Store messages
                (SpecDAO.authenticate check_password) create_access_token
                config timestamp (login_request "" "Secret123") world)
      as (H & _).
    exact (H eq_refl).
  - destruct (login_empty_field_is_missing SpecDAO.Store messages
                (SpecDAO.authenticate check_password) create_access_token
                config timestamp (login_request "" "") world)
      as (_ & _ & H & _).
    exact (H eq_refl eq_refl).
  - destruct (login_empty_field_is_missing SpecDAO.Store messages
                (SpecDAO.authenticate check_password) create_access_token
                config timestamp (login_request "alice" "") world)
      as (_ & _ & _ & H).
    exact (proj2 (H eq_refl eq_refl)
                 (PStr "The field password is missing.") eq_refl).
Defined.

(** Bob confirms his address; a second attempt with his token is
    turned away and changes nothing. *)
Lemma confirmation_is_one_way_sample :
  fst (confirm_get "v:b@x.com" world) = Returned SpecDAO.ConfirmSuccess
  /\ exists e u,
      decode "v:b@x.com" = Some e
      /\ SpecDAO.find_by_email e (db world) = Some u
      /\ UserModel.is_email_verified u = false
      /\ SpecDAO.find_by_email e (db (snd (confirm_get "v:b@x.com" world)))
           = Some (SpecDAO.set_verified u)
      /\ forall (later : list string) (token' : string),
          decode token' = Some e ->
          let w2 := confirm_all decode later
                                (snd (confirm_get "v:b@x.com" world)) in
          fst (confirm decode token' w2) = Returned SpecDAO.AlreadyConfirmed
          /\ db (snd (confirm decode token' w2)) = db w2
          /\ SpecDAO.find_by_email e (db w2)
               = Some (SpecDAO.set_verified u).
Proof.
  split; [reflexivity |].
  exact (confirmation_is_one_way decode "v:b@x.com" world eq_refl).
Defined.

(** Nobody is called mallory; alice exists, but her password is not
    "nope".  Both attempts are answered alike. *)
Lemma login_failures_indistinguishable_sample :
  fst (login_post (login_request "mallory" "Secret123") world) =
    fst (login_post (login_request "alice" "nope") world)
  /\ fst (login_post (login_request "alice" "nope") world) =
       said "Username or password is wrong." 404.
Proof.
  destruct (login_failures_indistinguishable messages check_password
              create_access_token config timestamp
              (login_request "mallory" "Secret123")
              (login_request "alice" "nope") "mallory" "alice" alice world)
    as (H1 & H2 & _); try reflexivity; try discriminate.
  - intros v [<- | [<- | []]]; split; discriminate.
  - split; [exact H1 | exact H2].
Defined.

End SampleRuns.


(** ** Further properties of the handlers *)

Lemma mails_app (es es' : list Event) :
  mails (es ++ es') = mails es ++ mails es'.
Proof.
  induction es as [| [m a | n e] es IH]; cbn; [reflexivity | exact IH |].
  rewrite IH. reflexivity.
Qed.

Lemma mails_after_call (es : list Event) (method : string)
      (args : list pyval) :
  mails (es ++ [DAOCall method args]) = mails es.
Proof. rewrite mails_app. cbn. apply app_nil_r. Qed.

Lemma mails_after_send (es : list Event) (name email : pyval) :
  mails (es ++ [SendEmail name email]) = mails es ++ [(name, email)].
Proof. rewrite mails_app. reflexivity. Qed.

Section LoginProperties.

Variable Store : Type.
Variable ResponseMessages : ResponseMessagesT.
Variable DAO_authenticate : pyval -> pyval -> Store -> option UserModel.t * Store.
Variable create_access_token : pyval -> Z -> string.
Variable application_config : dict.
Variable timestamp : Z -> pyval.

Local Abbreviation login_post :=
  (LoginUser_post Store ResponseMessages DAO_authenticate
                  create_access_token application_config timestamp).

(** X1: whatever [LoginUser.post] answers or raises, the world it
    leaves is the one it found when the username or the password is
    absent or falsy, and otherwise the one after exactly one call
    [DAO.authenticate(username, password)] with the two values as they
    were submitted: nothing else is called and no mail is sent. *)
Theorem login_world_effect (request_json : dict) (w : World Store) :
  let username := dict_get request_json "username" PNone in
  let password := dict_get request_json "password" PNone in
  snd (login_post request_json w) =
    if truthy username && truthy password
    then after_call w (snd (DAO_authenticate username password (db w)))
                    "authenticate" [username; password]
    else w.
Proof.
  intros username password. subst username password.
  unfold LoginUser_post, after_call.
  destruct (truthy (dict_get request_json "username" PNone));
    [| reflexivity].
  destruct (truthy (dict_get request_json "password" PNone)); run.
  - destruct (DAO_authenticate _ _ (db w)) as [[u |] s]; cbn;
      [| reflexivity].
    destruct (UserModel.is_email_verified u); cbn; [| reflexivity].
    destruct (dict_get application_config "JWT_ACCESS_TOKEN_EXPIRES" PNone);
      reflexivity.
  - destruct (py_getitem _ 1); reflexivity.
Qed.

(** X3: [LoginUser.post] answers 200 only when both fields were truthy,
    [DAO.authenticate] returned a user and that user's email is
    verified; the body then carries the token created for that user's
    id and the timestamp of the current time plus the configured
    lifetime. *)
Theorem login_200_only_for_verified_user (request_json : dict)
        (body : pyval) (w : World Store) :
  let username := dict_get request_json "username" PNone in
  let password := dict_get request_json "password" PNone in
  fst (login_post request_json w) = Returned (body, PInt 200) ->
  exists u ttl,
    truthy username = true /\ truthy password = true
    /\ fst (DAO_authenticate username password (db w)) = Some u
    /\ UserModel.is_email_verified u = true
    /\ dict_lookup "JWT_ACCESS_TOKEN_EXPIRES" application_config
         = Some (PTimedelta ttl)
    /\ body = PDict [("access_token",
                      PStr (create_access_token (PInt (UserModel.id u))
                                                (clock w)));
                     ("expiry", timestamp (clock w + ttl))].
Proof.
  intros username password. subst username password.
  unfold LoginUser_post.
  destruct (truthy (dict_get request_json "username" PNone));
    [| cbn; intros H; discriminate].
  destruct (truthy (dict_get request_json "password" PNone)); run.
  - destruct (DAO_authenticate _ _ (db w)) as [[u |] s]; cbn;
      [| intros H; discriminate].
    destruct (UserModel.is_email_verified u) eqn:Hv; cbn;
      [| intros H; discriminate].
    unfold dict_get.
    destruct (dict_lookup "JWT_ACCESS_TOKEN_EXPIRES" application_config)
      as [[| | | | | | | ttl] |]; cbn; intros H; try discriminate.
    injection H as <-. exists u, ttl. repeat split; assumption.
  - destruct (py_getitem _ 1); cbn; intros H; discriminate.
Qed.

End LoginProperties.

Section MoreResourceProperties.

Variable Store : Type.
Variable ResponseMessages : ResponseMessagesT.
Variable DAO_list_users :
  pyval -> option bool -> Store -> list UserModel.t * Store.
Variable DAO_get_user : pyval -> Store -> option UserModel.t * Store.
Variable DAO_update_user_profile : pyval -> dict -> Store -> response * Store.
Variable DAO_delete_user : pyval -> Store -> response * Store.
Variable DAO_change_password : pyval -> dict -> Store -> response * Store.
Variable DAO_create_user : dict -> Store -> response * Store.
Variable ConfirmationResult : Type.
Variable DAO_confirm_registration : string -> Store -> ConfirmationResult * Store.
Variable DAO_get_user_by_email : pyval -> Store -> option UserModel.t * Store.
Variable DAO_authenticate : pyval -> pyval -> Store -> option UserModel.t * Store.
Variable DAO_get_user_statistics : pyval -> Store -> pyval * Store.
Variable validate_update_profile_request_data : dict -> dict.
Variable validate_new_password : dict -> dict.
Variable validate_user_registration_request_data : dict -> dict.
Variable validate_resend_email_request_data : dict -> dict.
Variable ApiModel : Type.
Variable marshal : UserModel.t -> ApiModel -> pyval.
Variable marshal_None : ApiModel -> pyval.
Variable public_user_api_model : ApiModel.
Variable full_user_api_model : ApiModel.
Variable create_access_token : pyval -> Z -> string.
Variable application_config : dict.
Variable timestamp : Z -> pyval.

Local Abbreviation other_user_get :=
  (OtherUser_get Store ResponseMessages DAO_get_user ApiModel marshal
                 public_user_api_model).
Local Abbreviation register_post :=
  (UserRegister_post Store DAO_create_user
                     validate_user_registration_request_data).
Local Abbreviation resend_post :=
  (UserResendEmailConfirmation_post Store ResponseMessages
     DAO_get_user_by_email validate_resend_email_request_data).
Local Abbreviation home_get :=
  (UserHomeStatistics_get Store ResponseMessages DAO_get_user_statistics).

(** X4: when a registration payload gets past the validator without a
    name, or with a name but without an email, and [DAO.create_user]
    answers with status 200, [UserRegister.post] raises [KeyError] after
    the call: the store is the one [create_user] left, no mail has been
    sent and the DAO's result is not returned. *)
Theorem register_key_error_after_create (data : dict) (w : World Store) :
  validate_user_registration_request_data data = [] ->
  is_small_int (snd (fst (DAO_create_user data (db w)))) 200 = true ->
  let w' := after_call w (snd (DAO_create_user data (db w)))
                       "create_user" [PDict data] in
  (dict_lookup "name" data = None ->
   register_post data w = (Raised (KeyError (PStr "name")), w'))
  /\ (forall name, dict_lookup "name" data = Some name ->
      dict_lookup "email" data = None ->
      register_post data w = (Raised (KeyError (PStr "email")), w')).
Proof.
  intros Hv H200 w'. subst w'. unfold UserRegister_post, after_call.
  rewrite Hv. run.
  destruct (DAO_create_user data (db w)) as [r s]; cbn in *.
  rewrite H200. split.
  - intros ->. reflexivity.
  - intros name -> ->. reflexivity.
Qed.

(** X5: when a resend payload gets past the validator without an
    email, [UserResendEmailConfirmation.post] raises [KeyError] before
    it reaches the DAO: the world is left as it was. *)
Theorem resend_key_error_before_lookup (data : dict) (w : World Store) :
  validate_resend_email_request_data data = [] ->
  dict_lookup "email" data = None ->
  resend_post data w = (Raised (KeyError (PStr "email")), w).
Proof.
  intros Hv He. unfold UserResendEmailConfirmation_post.
  rewrite Hv. run. rewrite He. reflexivity.
Qed.

(** X6: [OtherUser.get] never raises and answers with one of the
    statuses 400, 404 and 201; it answers 400 exactly when the id is
    not an [int], and it calls [DAO.get_user], once, exactly when the id
    is one (a [bool] counts as an [int]). *)
Theorem get_user_by_id_reaches_dao_iff_int (user_id : pyval)
        (w : World Store) :
  snd (other_user_get user_id w) =
    (if isinstance_int user_id
     then after_call w (snd (DAO_get_user user_id (db w)))
                     "get_user" [user_id]
     else w)
  /\ exists body status,
      fst (other_user_get user_id w) = Returned (body, PInt status)
      /\ (status = 400 \/ status = 404 \/ status = 201)
      /\ (status = 400 <-> isinstance_int user_id = false).
Proof.
  unfold OtherUser_get, OtherUser_validate_param, after_call.
  destruct (isinstance_int user_id); run.
  - destruct (DAO_get_user user_id (db w)) as [[u |] s]; cbn.
    + split; [reflexivity |]. do 2 eexists.
      split; [reflexivity |]. split; [auto |].
      split; [lia | discriminate].
    + split; [reflexivity |]. do 2 eexists.
      split; [reflexivity |]. split; [auto |].
      split; [lia | discriminate].
  - split; [reflexivity |]. do 2 eexists.
    split; [reflexivity |]. split; [auto |]. split; reflexivity.
Qed.

(** X7: [UserHomeStatistics.get] calls [DAO.get_user_statistics] once
    and answers 200 with the statistics when they are truthy, and 404
    with the message [USER_NOT_FOUND[1]] when they are falsy; so
    statistics that are an empty dict are answered 404, like [None]. *)
Theorem home_statistics_outcomes (user_id : pyval) (w : World Store) :
  let stats := fst (DAO_get_user_statistics user_id (db w)) in
  let w' := after_call w (snd (DAO_get_user_statistics user_id (db w)))
                       "get_user_statistics" [user_id] in
  (truthy stats = true ->
   home_get user_id w = (Returned (stats, PInt 200), w'))
  /\ (forall m, truthy stats = false ->
      py_getitem (USER_NOT_FOUND ResponseMessages) 1 = Returned m ->
      home_get user_id w = (Returned (message_body m, PInt 404), w'))
  /\ (forall m, stats = PDict [] \/ stats = PNone ->
      py_getitem (USER_NOT_FOUND ResponseMessages) 1 = Returned m ->
      fst (home_get user_id w) = Returned (message_body m, PInt 404)).
Proof.
  intros stats w'. subst stats w'.
  unfold UserHomeStatistics_get, after_call. run.
  destruct (DAO_get_user_statistics user_id (db w)) as [r s]; cbn.
  split; [| split].
  - intros ->. reflexivity.
  - intros m -> ->. reflexivity.
  - intros m [-> | ->] ->; reflexivity.
Qed.

(** X8: of all the handlers only [UserRegister.post] and
    [UserResendEmailConfirmation.post] send mail: whatever they are
    given and whatever they answer, [UserList.get], [OtherUser.get],
    [MyUserProfile.get], [.put] and [.delete], [ChangeUserPassword.put],
    [VerifiedUser.get], [UserEmailConfirmation.get], [LoginUser.post]
    and [UserHomeStatistics.get] leave the mails sent as they were. *)
Theorem only_register_and_resend_send_mail
        (user_id : pyval) (data : dict) (token : string) (w : World Store) :
  let unchanged (w' : World Store) :=
    mails (events w') = mails (events w) in
  unchanged (snd (UserList_get Store DAO_list_users ApiModel marshal
                    public_user_api_model user_id w))
  /\ unchanged (snd (other_user_get user_id w))
  /\ unchanged (snd (MyUserProfile_get Store DAO_get_user ApiModel marshal
                       marshal_None full_user_api_model user_id w))
  /\ unchanged (snd (MyUserProfile_put Store DAO_update_user_profile
                       validate_update_profile_request_data user_id data w))
  /\ unchanged (snd (MyUserProfile_delete Store DAO_delete_user user_id w))
  /\ unchanged (snd (ChangeUserPassword_put Store DAO_change_password
                       validate_new_password user_id data w))
  /\ unchanged (snd (VerifiedUser_get Store DAO_list_users ApiModel marshal
                       public_user_api_model user_id w))
  /\ unchanged (snd (UserEmailConfirmation_get Store ConfirmationResult
                       DAO_confirm_registration token w))
  /\ unchanged (snd (LoginUser_post Store ResponseMessages DAO_authenticate
                       create_access_token application_config timestamp
                       data w))
  /\ unchanged (snd (home_get user_id w)).
Proof.
  cbv zeta.
  unfold UserList_get, OtherUser_get, MyUserProfile_get, MyUserProfile_put,
    MyUserProfile_delete, ChangeUserPassword_put, VerifiedUser_get,
    UserEmailConfirmation_get, LoginUser_post, UserHomeStatistics_get.
  repeat split.
  - run. destruct (DAO_list_users _ _ _); cbn. apply mails_after_call.
  - destruct (negb _); run; [reflexivity |].
    destruct (DAO_get_user _ _) as [[u |] s]; cbn; apply mails_after_call.
  - run. destruct (DAO_get_user _ _); cbn. apply mails_after_call.
  - destruct (dict_ne_empty _); run; [reflexivity |].
    destruct (DAO_update_user_profile _ _ _); cbn. apply mails_after_call.
  - run. destruct (DAO_delete_user _ _); cbn. apply mails_after_call.
  - destruct (dict_ne_empty _); run; [reflexivity |].
    destruct (DAO_change_password _ _ _); cbn. apply mails_after_call.
  - run. destruct (DAO_list_users _ _ _); cbn. apply mails_after_call.
  - run. destruct (DAO_confirm_registration _ _); cbn.
    apply mails_after_call.
  - destruct (negb (truthy (dict_get data "username" PNone)));
      [reflexivity |].
    destruct (negb (truthy (dict_get data "password" PNone))); run.
    + destruct (py_getitem _ 1); reflexivity.
    + destruct (DAO_authenticate _ _ _) as [[u |] s]; cbn;
        [| apply mails_after_call].
      destruct (negb _); cbn; [apply mails_after_call |].
      destruct (dict_get application_config _ _); cbn;
        apply mails_after_call.
  - run. destruct (DAO_get_user_statistics _ _) as [r s]; cbn.
    destruct (negb (truthy r)); run; [| apply mails_after_call].
    destruct (py_getitem _ 1); cbn; apply mails_after_call.
Qed.

(** X9: [UserRegister.post] and [UserResendEmailConfirmation.post] send
    at most one mail per request, whatever the payload and whether they
    answer or raise, and none at all when the validator reports an
    error. *)
Theorem at_most_one_mail_per_request (data : dict) (w : World Store) :
  let at_most_one (w' : World Store) :=
    exists new, mails (events w') = mails (events w) ++ new
                /\ (List.length new <= 1)%nat in
  at_most_one (snd (register_post data w))
  /\ at_most_one (snd (resend_post data w))
  /\ (validate_user_registration_request_data data <> [] ->
      mails (events (snd (register_post data w))) = mails (events w))
  /\ (validate_resend_email_request_data data <> [] ->
      mails (events (snd (resend_post data w))) = mails (events w)).
Proof.
  cbv zeta.
  assert (K0 : forall es method args,
             exists new, mails (es ++ [DAOCall method args]) = mails es ++ new
                         /\ (List.length new <= 1)%nat).
  { intros. exists []. rewrite mails_after_call, app_nil_r. auto. }
  assert (K1 : forall es method args name email,
             exists new,
               mails ((es ++ [DAOCall method args]) ++ [SendEmail name email])
               = mails es ++ new /\ (List.length new <= 1)%nat).
  { intros. exists [(name, email)].
    rewrite mails_after_send, mails_after_call. auto. }
  assert (K : exists new : list (pyval * pyval),
             mails (events w) = mails (events w) ++ new
             /\ (List.length new <= 1)%nat).
  { exists []. rewrite app_nil_r. auto. }
  unfold UserRegister_post, UserResendEmailConfirmation_post.
  split; [| split; [| split]].
  - destruct (dict_ne_empty _); run; [exact K |].
    destruct (DAO_create_user data (db w)) as [r s]; cbn.
    destruct (is_small_int (snd r) 200); cbn; [| apply K0].
    destruct (dict_lookup "name" data); cbn; [| apply K0].
    destruct (dict_lookup "email" data); cbn; [apply K1 | apply K0].
  - destruct (dict_ne_empty _); run; [exact K |].
    destruct (dict_lookup "email" data) as [email |]; cbn; [| exact K].
    destruct (DAO_get_user_by_email email (db w)) as [[u |] s]; cbn;
      [| apply K0].
    destruct (UserModel.is_email_verified u); cbn; [apply K0 | apply K1].
  - intros H.
    destruct (validate_user_registration_request_data data);
      [congruence | reflexivity].
  - intros H.
    destruct (validate_resend_email_request_data data);
      [congruence | reflexivity].
Qed.

End MoreResourceProperties.

(** ** The further properties on the sample deployment *)

Section MoreSampleRuns.

Import Sample SampleReads.

(** Alice's login is answered 200, so it was her, verified. *)
Lemma login_200_only_for_verified_user_sample :
  fst (login_post (login_request "alice" "Secret123") world) =
    Returned (PDict [("access_token", PStr "jwt-for-1");
                     ("expiry", PInt 604812)], PInt 200)
  /\ exists u ttl,
      fst (SpecDAO.authenticate check_password
             (PStr "alice") (PStr "Secret123") users) = Some u
      /\ UserModel.is_email_verified u = true
      /\ dict_lookup "JWT_ACCESS_TOKEN_EXPIRES" config
           = Some (PTimedelta ttl).
Proof.
  split; [reflexivity |].
  destruct (login_200_only_for_verified_user SpecDAO.Store messages
              (SpecDAO.authenticate check_password) create_access_token
              config timestamp (login_request "alice" "Secret123")
              (PDict [("access_token", PStr "jwt-for-1");
                      ("expiry", PInt 604812)]) world eq_refl)
    as (u & ttl & _ & _ & Ha & Hv & Hc & _).
  exists u, ttl. split; [exact Ha | split; [exact Hv | exact Hc]].
Defined.

(** Dave registers without a name, Erin with a name but no email; both
    accounts are stored, as the third, and the handler raises. *)
Lemma register_key_error_after_create_sample :
  fst (lax_register_post [("username", PStr "dave")] world)
    = Raised (KeyError (PStr "name"))
  /\ List.length (db (snd (lax_register_post [("username", PStr "dave")]
                                             world))) = 3%nat
  /\ fst (lax_register_post [("username", PStr "erin");
                             ("name", PStr "Erin")] world)
     = Raised (KeyError (PStr "email"))
  /\ mails (events (snd (lax_register_post [("username", PStr "erin");
                                            ("name", PStr "Erin")] world)))
     = [].
Proof.
  pose proof (proj1 (register_key_error_after_create SpecDAO.Store
                       create_user validate_username_only
                       [("username", PStr "dave")] world eq_refl eq_refl)
                    eq_refl) as R1.
  pose proof (proj2 (register_key_error_after_create SpecDAO.Store
                       create_user validate_username_only
                       [("username", PStr "erin"); ("name", PStr "Erin")]
                       world eq_refl eq_refl)
                    (PStr "Erin") eq_refl eq_refl) as R2.
  split; [| split; [| split]].
  - exact (f_equal fst R1).
  - exact (f_equal (fun r => List.length (db (snd r))) R1).
  - exact (f_equal fst R2).
  - exact (f_equal (fun r => mails (events (snd r))) R2).
Defined.

(** An empty payload that the validator lets through. *)
Lemma resend_key_error_before_lookup_sample :
  lax_resend_post [] world = (Raised (KeyError (PStr "email")), world).
Proof.
  exact (resend_key_error_before_lookup SpecDAO.Store messages
           get_user_by_email validate_nothing [] world eq_refl eq_refl).
Defined.

(** Alice has statistics; bob's are an empty dict; user 9 has none. *)
Lemma home_statistics_outcomes_sample :
  fst (home_get (PInt 1) world) =
    Returned (PDict [("name", PStr "Alice"); ("pending_requests", PInt 2)],
              PInt 200)
  /\ fst (home_get (PInt 2) world) =
       Returned (message_body (PStr "User not found."), PInt 404)
  /\ fst (home_get (PInt 9) world) =
       Returned (message_body (PStr "User not found."), PInt 404).
Proof.
  split; [| split].
  - exact (f_equal fst
             (proj1 (home_statistics_outcomes SpecDAO.Store messages
                       get_user_statistics (PInt 1) world) eq_refl)).
  - exact (proj2 (proj2 (home_statistics_outcomes SpecDAO.Store messages
                           get_user_statistics (PInt 2) world))
                 (PStr "User not found.") (or_introl eq_refl) eq_refl).
  - exact (f_equal fst
             (proj1 (proj2 (home_statistics_outcomes SpecDAO.Store messages
                              get_user_statistics (PInt 9) world))
                    (PStr "User not found.") eq_refl eq_refl)).
Defined.

(** Empty payloads fail both validators: no mail. *)
Lemma at_most_one_mail_per_request_sample :
  mails (events (snd (register_post [] world))) = []
  /\ mails (events (snd (resend_post [] world))) = [].
Proof.
  destruct (at_most_one_mail_per_request SpecDAO.Store messages create_user
              get_user_by_email validate_registration validate_resend
              [] world) as (_ & _ & H1 & H2).
  split.
  - apply H1. discriminate.
  - apply H2. discriminate.
Defined.

End MoreSampleRuns.

(** ** The expiry returned by a login, and the route to [OtherUser] *)

Section ExpiryAndRouting.

Variable Store : Type.
Variable ResponseMessages : ResponseMessagesT.
Variable DAO_list_users :
  pyval -> option bool -> Store -> list UserModel.t * Store.
Variable DAO_get_user : pyval -> Store -> option UserModel.t * Store.
Variable DAO_authenticate : pyval -> pyval -> Store -> option UserModel.t * Store.
Variable ApiModel : Type.
Variable marshal : UserModel.t -> ApiModel -> pyval.
Variable public_user_api_model : ApiModel.
Variable router_not_found : pyval.
Variable create_access_token : pyval -> Z -> string.
Variable application_config : dict.

Local Abbreviation get_users :=
  (GET_users_segment Store ResponseMessages DAO_list_users DAO_get_user
                     ApiModel marshal public_user_api_model
                     router_not_found).


(** X2: when [JWT_ACCESS_TOKEN_EXPIRES] is configured as [False]
    (tokens that never expire), a login with good credentials of a
    verified user raises [TypeError] instead of answering, for a
    datetime cannot be added to [False]; the Authenticator has been
    called by then. *)
Theorem login_with_lifetime_False_raises (timestamp : Z -> pyval)
        (request_json : dict) (u : UserModel.t) (w : World Store) :
  let username := dict_get request_json "username" PNone in
  let password := dict_get request_json "password" PNone in
  truthy username = true -> truthy password = true ->
  fst (DAO_authenticate username password (db w)) = Some u ->
  UserModel.is_email_verified u = true ->
  dict_lookup "JWT_ACCESS_TOKEN_EXPIRES" application_config
    = Some (PBool false) ->
  LoginUser_post Store ResponseMessages DAO_authenticate create_access_token
                 application_config timestamp request_json w =
    (Raised TypeError,
     after_call w (snd (DAO_authenticate username password (db w)))
                "authenticate" [username; password]).
Proof.
  intros username password Hu Hp Ha Hv Hc. subst username password.
  unfold LoginUser_post, after_call. rewrite Hu, Hp. run.
  destruct (DAO_authenticate _ _ (db w)) as [r s]; cbn in *. subst r.
  rewrite Hv. cbn. unfold dict_get. rewrite Hc. reflexivity.
Qed.

(** X10: a request [GET users/<segment>] is answered by the router,
    with 404 and the world untouched, when the segment is neither
    [verified] nor a run of digits; a run of digits reaches
    [OtherUser.get] as the [int] it denotes, and is answered 404 with
    the does-not-exist message or 201 with the marshalled user; and no
    segment at all is answered 400: the invalid-id branch of
    [OtherUser.get] cannot be reached through its route. *)
Theorem routed_get_user_outcomes (identity : pyval) (segment : string)
        (w : World Store) :
  (segment <> "verified" -> int_converter segment = None ->
   get_users identity segment w = (Returned (router_not_found, PInt 404), w))
  /\ (forall n, int_converter segment = Some n ->
      get_users identity segment w =
        OtherUser_get Store ResponseMessages DAO_get_user ApiModel marshal
                      public_user_api_model (PInt n) w
      /\ (fst (DAO_get_user (PInt n) (db w)) = None ->
          fst (get_users identity segment w) =
            Returned (message_body (USER_DOES_NOT_EXIST ResponseMessages),
                      PInt 404))
      /\ (forall u, fst (DAO_get_user (PInt n) (db w)) = Some u ->
          fst (get_users identity segment w) =
            Returned (marshal u public_user_api_model, PInt 201)))
  /\ (forall body,
      fst (get_users identity segment w) <> Returned (body, PInt 400)).
Proof.
  unfold GET_users_segment.
  split; [| split].
  - intros Hs Hc. apply String.eqb_neq in Hs. rewrite Hs, Hc. reflexivity.
  - intros n Hc.
    assert (Hs : String.eqb segment "verified" = false).
    { destruct (String.eqb segment "verified") eqn:E; [| reflexivity].
      apply String.eqb_eq in E. subst segment. discriminate. }
    rewrite Hs, Hc. unfold OtherUser_get. run.
    destruct (DAO_get_user (PInt n) (db w)) as [r s]; cbn.
    split; [reflexivity | split].
    + intros ->. reflexivity.
    + intros u ->. reflexivity.
  - intros body.
    destruct (String.eqb segment "verified").
    + unfold VerifiedUser_get. run.
      destruct (DAO_list_users _ _ _); cbn. discriminate.
    + destruct (int_converter segment) as [n |]; [| cbn; discriminate].
      unfold OtherUser_get. run.
      destruct (DAO_get_user (PInt n) (db w)) as [[u |] s]; cbn;
        discriminate.
Qed.


End ExpiryAndRouting.

Section ServerRuns.

Import Sample SampleServer.

(** C6: at 2019-06-01 00:00:00 UTC, with a lifetime of one week, the
    current time plus the lifetime is the second 1559952000.  A server
    in UTC answers alice's login with exactly that expiry; a server one
    hour east of UTC answers the same login with the expiry
    1559948400.0, one hour short of it. *)
Theorem login_expiry_off_utc :
  (clock world_2019 + one_week) / 1000000 = 1559952000
  /\ fst (login_post_in utc (login_request "alice" "Secret123") world_2019)
     = Returned (PDict [("access_token", PStr "jwt-for-1");
                        ("expiry", PFloat (float_of_int 1559952000))],
                 PInt 200)
  /\ fst (login_post_in utc_plus_1 (login_request "alice" "Secret123")
                        world_2019)
     = Returned (PDict [("access_token", PStr "jwt-for-1");
                        ("expiry", PFloat (float_of_int 1559948400))],
                 PInt 200)
  /\ float_is_int (float_of_int 1559952000) 1559952000 = true
  /\ float_is_int (float_of_int 1559948400) (1559952000 - 3600) = true
  /\ float_of_int 1559948400 <> float_of_int 1559952000.
Proof.
  split; [reflexivity |].
  split; [vm_compute; reflexivity |].
  split; [vm_compute; reflexivity |].
  split; [vm_compute; reflexivity |].
  split; [vm_compute; reflexivity |].
  vm_compute. discriminate.
Qed.

(** C7: the request [GET users/abc] is answered 404 by the router,
    which leaves the world as it was: [OtherUser.get] is not run, and
    the answer is not its invalid-id message with 400. *)
Theorem non_integer_id_is_router_404 :
  get_users_segment (PInt 1) "abc" world =
    (Returned (not_found, PInt 404), world)
  /\ fst (get_users_segment (PInt 1) "abc" world) <>
       Returned (message_body (USER_ID_IS_NOT_VALID messages), PInt 400).
Proof.
  split; [reflexivity |]. cbn. discriminate.
Qed.

(** Alice logs in while tokens are configured never to expire. *)
Lemma login_with_lifetime_False_raises_sample :
  fst (login_post_no_expiry (login_request "alice" "Secret123") world)
    = Raised TypeError
  /\ events (snd (login_post_no_expiry (login_request "alice" "Secret123")
                                       world))
     = [DAOCall "authenticate" [PStr "alice"; PStr "Secret123"]].
Proof.
  pose proof (login_with_lifetime_False_raises SpecDAO.Store messages
                (SpecDAO.authenticate check_password) create_access_token
                [("JWT_ACCESS_TOKEN_EXPIRES", PBool false)] timestamp
                (login_request "alice" "Secret123") alice world
                eq_refl eq_refl eq_refl eq_refl eq_refl) as R.
  split.
  - exact (f_equal fst R).
  - exact (f_equal (fun r => events (snd r)) R).
Defined.

(** "-5" and "abc" match no route; "007" is the id 7, which nobody has;
    "1" is alice. *)
Lemma routed_get_user_outcomes_sample :
  get_users_segment (PInt 1) "-5" world =
    (Returned (not_found, PInt 404), world)
  /\ fst (get_users_segment (PInt 1) "007" world) =
       Returned (message_body (PStr "User does not exist."), PInt 404)
  /\ fst (get_users_segment (PInt 1) "1" world) =
       Returned (marshal alice tt, PInt 201).
Proof.
  split; [| split].
  - refine (proj1 (routed_get_user_outcomes SpecDAO.Store messages
                     SampleReads.list_users get_user unit marshal tt
                     not_found (PInt 1) "-5" world) _ eq_refl).
    discriminate.
  - exact (proj1 (proj2 (proj1 (proj2
             (routed_get_user_outcomes SpecDAO.Store messages
                SampleReads.list_users get_user unit marshal tt
                not_found (PInt 1) "007" world)) 7 eq_refl)) eq_refl).
  - exact (proj2 (proj2 (proj1 (proj2
             (routed_get_user_outcomes SpecDAO.Store messages
                SampleReads.list_users get_user unit marshal tt
                not_found (PInt 1) "1" world)) 1 eq_refl)) alice eq_refl).
Defined.


End ServerRuns.
